(** * TrendSage: the content-idea generator ([ai_generator.py])

    A shallow embedding of the module's two functions,
    [generate_content_ideas] and [generate_mock_content_ideas], together
    with the small part of the Python runtime they rely on: exceptions,
    the module logger, [dict] lookups and the values a JSON decoder can
    produce.

    Python [str] is modelled by [string]; a [dict] whose iteration order
    matters is an association list in insertion order. The fallback is
    modelled twice: on values, and on a heap of objects with references,
    where what a call shares with its caller can be stated. *)

From Stdlib Require Import String Ascii List Bool Arith ZArith Lia.
Import ListNotations.
Local Open Scope string_scope.

Set Implicit Arguments.

(** ** The Python runtime the module uses *)

Module Py.

(** An instance of a subclass of [Exception]: its class name and the
    text [str(e)] gives. *)
Record Exception : Type := mkException {
  exc_class : string;
  exc_str : string
}.

(** [repr] of a [str] (characters are code points below 256): the quote
    is the double one only when the string has a single quote and no
    double one; backslash, the quote in use, newline, return, tab and the
    unprintable characters are escaped. *)
Definition hex_digit (n : nat) : ascii :=
  nth n (list_ascii_of_string "0123456789abcdef") "0"%char.

Definition printable (c : ascii) : bool :=
  let n := nat_of_ascii c in
  (32 <=? n)%nat && negb ((127 <=? n)%nat && (n <=? 160)%nat)
  && negb (n =? 173)%nat.

Definition repr_char (quote c : ascii) : string :=
  let n := nat_of_ascii c in
  if (c =? "092")%char then "\\"
  else if (c =? quote)%char then String "092" (String quote EmptyString)
  else if (c =? "010")%char then "\n"
  else if (c =? "013")%char then "\r"
  else if (c =? "009")%char then "\t"
  else if printable c then String c EmptyString
  else "\x" ++ String (hex_digit (n / 16))
                      (String (hex_digit (n mod 16)) EmptyString).

Fixpoint mentions (c : ascii) (s : string) : bool :=
  match s with
  | EmptyString => false
  | String d rest => (c =? d)%char || mentions c rest
  end.

Fixpoint repr_body (quote : ascii) (s : string) : string :=
  match s with
  | EmptyString => EmptyString
  | String c rest => repr_char quote c ++ repr_body quote rest
  end.

Definition repr (s : string) : string :=
  let quote := if mentions "039" s && negb (mentions "034" s)
               then "034"%char else "039"%char in
  String quote (repr_body quote s ++ String quote EmptyString).

(** [str(KeyError(key))] is the [repr] of the key. *)
Definition KeyError (key : string) : Exception :=
  mkException "KeyError" (repr key).
Definition IndexError : Exception :=
  mkException "IndexError" "list index out of range".
Definition TypeError (msg : string) : Exception := mkException "TypeError" msg.
Definition AttributeError (msg : string) : Exception :=
  mkException "AttributeError" msg.

(** How a call ends. *)
Inductive outcome (A : Type) : Type :=
| Returns (a : A)
| Raises (e : Exception).
Arguments Raises {A} e.

(** Records of the [logging] module. *)
Inductive Level : Type := INFO | WARNING | ERROR.
Definition LogRecord : Type := (Level * string)%type.

(** A computation: the records it logged, in order, and how it ended. *)
Definition M (A : Type) : Type := (list LogRecord * outcome A)%type.

Definition ret {A} (a : A) : M A := ([], Returns a).
Definition raise {A} (e : Exception) : M A := ([], Raises e).
Definition lift {A} (o : outcome A) : M A := ([], o).

Definition bind {A B} (m : M A) (k : A -> M B) : M B :=
  match m with
  | (logs, Returns a) => let (logs', r) := k a in ((logs ++ logs')%list, r)
  | (logs, Raises e) => (logs, Raises e)
  end.

(** [try: body  except Exception as e: handler e]. *)
Definition try_except {A} (body : M A) (handler : Exception -> M A) : M A :=
  match body with
  | (logs, Raises e) => let (logs', r) := handler e in ((logs ++ logs')%list, r)
  | (logs, Returns a) => (logs, Returns a)
  end.

Definition logged {A} (m : M A) : list LogRecord := fst m.
Definition result {A} (m : M A) : outcome A := snd m.

Definition log (lvl : Level) (msg : string) : M unit := ([(lvl, msg)], Returns tt).

(** The objects [json.loads] can build (a [float] keeps its lexeme). *)
#[warnings="-register-all"] Inductive value : Type :=
| VNone
| VBool (b : bool)
| VInt (n : Z)
| VFloat (lexeme : string)
| VStr (s : string)
| VList (items : list value)
| VDict (entries : list (string * value)).

Definition isinstance_dict (v : value) : bool :=
  match v with VDict _ => true | _ => false end.
Definition isinstance_list (v : value) : bool :=
  match v with VList _ => true | _ => false end.

(** [dict] operations on an association list kept in insertion order. *)
Section Dict.
Variable V : Type.

Fixpoint lookup (d : list (string * V)) (key : string) : option V :=
  match d with
  | [] => None
  | (k, v) :: rest => if (k =? key)%string then Some v else lookup rest key
  end.

(** [key in d] *)
Definition contains (d : list (string * V)) (key : string) : bool :=
  match lookup d key with Some _ => true | None => false end.

(** [d[key]] *)
Definition getitem (d : list (string * V)) (key : string) : outcome V :=
  match lookup d key with
  | Some v => Returns v
  | None => Raises (KeyError key)
  end.

(** [d.get(key, default)] *)
Definition get (d : list (string * V)) (key : string) (default : V) : V :=
  match lookup d key with Some v => v | None => default end.

(** The keys [for k in d] visits, in order. *)
Definition keys (d : list (string * V)) : list string := map fst d.

(** [l[0]] *)
Definition first (l : list V) : outcome V :=
  match l with
  | x :: _ => Returns x
  | [] => Raises IndexError
  end.
End Dict.

(** [key in v] and [v[key]] for a decoded value already known to be a
    [dict]. *)
Definition value_contains (v : value) (key : string) : bool :=
  match v with VDict d => contains d key | _ => false end.
Definition value_getitem (v : value) (key : string) : outcome value :=
  match v with
  | VDict d => getitem d key
  | _ => Raises (TypeError "object is not subscriptable")
  end.

(** Truth value of [os.environ.get(...)]: [None] and the empty string are
    false. *)
Definition truthy (s : option string) : bool :=
  match s with
  | Some s => negb (s =? EmptyString)%string
  | None => false
  end.

Definition is_None {A} (o : option A) : bool :=
  match o with None => true | Some _ => false end.

End Py.

Import Py.

Declare Scope py_scope.
Delimit Scope py_scope with py.
Notation "x <- c ;; k" := (bind c (fun x => k))
  (at level 61, c at next level, right associativity) : py_scope.
Notation "c ;; k" := (bind c (fun _ => k))
  (at level 61, right associativity) : py_scope.
Local Open Scope py_scope.

(** ** The module logger *)

Definition logger_info (msg : string) : M unit := log INFO msg.
Definition logger_warning (msg : string) : M unit := log WARNING msg.
Definition logger_error (msg : string) : M unit := log ERROR msg.

(** ** Content ideas *)

(** The [dict] every template builds: six string fields. *)
Record ContentIdea : Type := mkIdea {
  title : string;
  description : string;
  content_type : string;
  virality : string;
  target_audience : string;
  category : string
}.

(** The idea as the Python object it is: a [dict] with its keys in the
    order the literal lists them. *)
Definition idea_value (i : ContentIdea) : value :=
  VDict [ ("title", VStr (title i));
          ("description", VStr (description i));
          ("content_type", VStr (content_type i));
          ("virality", VStr (virality i));
          ("target_audience", VStr (target_audience i));
          ("category", VStr (category i)) ].

Definition ideas_value (l : list ContentIdea) : value :=
  VList (map idea_value l).

(** Category definitions *)
Definition CATEGORIES : list (string * string) :=
  [ ("all", "All categories");
    ("humor", "Humorous and entertaining content");
    ("tech", "Technology-related content");
    ("finance", "Financial advice and education");
    ("fitness", "Health and fitness content");
    ("education", "Educational and informative content");
    ("lifestyle", "Lifestyle and daily vlog content") ].

(** ** The fallback template bank *)

(** Base templates for different categories; every f-string is the
    concatenation it denotes. *)
Definition templates (topic : string) : list (string * list ContentIdea) :=
  [ ("humor",
     [ mkIdea ("When " ++ topic ++ " Goes Hilariously Wrong")
              ("A compilation of funny " ++ topic ++ " fails that everyone can relate to.")
              "video" "high"
              "General audience with interest in comedy"
              "humor";
       mkIdea (topic ++ " Expectations vs. Reality")
              ("Contrasting what people expect from " ++ topic ++ " with the often-amusing reality.")
              "reel" "high"
              "Young adults and teens"
              "humor" ]);
    ("tech",
     [ mkIdea ("5 " ++ topic ++ " Hacks You Never Knew Existed")
              ("Quick technical tips to master " ++ topic ++ " that most people don't know about.")
              "tutorial" "medium"
              "Tech enthusiasts and early adopters"
              "tech";
       mkIdea ("The Future of " ++ topic ++ ": 2025 Predictions")
              ("Analysis of upcoming trends and technologies related to " ++ topic ++ ".")
              "post" "medium"
              "Industry professionals and tech followers"
              "tech" ]);
    ("finance",
     [ mkIdea ("How " ++ topic ++ " Can Save You $1000 This Month")
              ("Practical financial strategies using " ++ topic ++ " for immediate savings.")
              "video" "medium"
              "Budget-conscious adults"
              "finance";
       mkIdea ("Investing in " ++ topic ++ ": Beginner's Guide")
              ("Step-by-step approach to understanding investment opportunities in " ++ topic ++ ".")
              "series" "low"
              "New investors"
              "finance" ]);
    ("fitness",
     [ mkIdea ("10-Minute " ++ topic ++ " Workout for Busy People")
              ("Quick and effective workout routine incorporating " ++ topic ++ " principles.")
              "reel" "high"
              "Busy professionals interested in fitness"
              "fitness";
       mkIdea (topic ++ " Transformation Challenge")
              ("30-day fitness journey using " ++ topic ++ " methods with visible results.")
              "series" "medium"
              "Fitness enthusiasts looking for challenges"
              "fitness" ]);
    ("education",
     [ mkIdea (topic ++ " Explained in 60 Seconds")
              ("Quick, easy-to-understand explanation of " ++ topic ++ " for beginners.")
              "reel" "medium"
              "Students and lifelong learners"
              "education";
       mkIdea ("What Schools Don't Teach About " ++ topic)
              ("Lesser-known but important facts about " ++ topic ++ " that aren't in textbooks.")
              "video" "medium"
              "Curious minds and alternative education followers"
              "education" ]);
    ("lifestyle",
     [ mkIdea ("Day in the Life: " ++ topic ++ " Edition")
              ("Follow-along vlog showing how " ++ topic ++ " integrates into daily routines.")
              "vlog" "medium"
              "Lifestyle content followers"
              "lifestyle";
       mkIdea (topic ++ " Room Makeover")
              ("Transforming a space with " ++ topic ++ "-inspired aesthetics and functionality.")
              "video" "medium"
              "Home decor and design enthusiasts"
              "lifestyle" ]) ].

(** The loop of the "all" branch,
    [for cat in templates: mixed_ideas.append(templates[cat][0]); if len(mixed_ideas) >= 5: break],
    over the keys still to visit. *)
Fixpoint mix_loop (bank : list (string * list ContentIdea)) (cats : list string)
                  (mixed_ideas : list ContentIdea) : M (list ContentIdea) :=
  match cats with
  | [] => ret mixed_ideas
  | cat :: rest =>
      ideas <- lift (getitem bank cat) ;;
      idea <- lift (first ideas) ;;
      let mixed_ideas := (mixed_ideas ++ [idea])%list in
      if (5 <=? List.length mixed_ideas)%nat then ret mixed_ideas
      else mix_loop bank rest mixed_ideas
  end.

(** Generate mock content ideas when API fails *)
Definition generate_mock_content_ideas (topic category : string)
  : M (list ContentIdea) :=
  logger_info ("Generating mock content ideas for " ++ topic
               ++ " in category " ++ category) ;;
  let templates := templates topic in
  if negb (category =? "all") then
    (* Return ideas from the specified category *)
    default <- lift (getitem templates "humor") ;;
    ret (get templates category default)
  else
    (* Return mix of ideas from all categories *)
    mix_loop templates (keys templates) [].

(** ** The external generation service *)

(** The keyword arguments of [openai.chat.completions.create]; the
    temperature keeps the literal's text. *)
Record Request : Type := mkRequest {
  model : string;
  messages : list (string * string);   (* role, content *)
  response_format : list (string * string);
  temperature : string;
  max_tokens : Z
}.

(** What the call returns, as far as [response.choices[0].message.content]
    reads it. *)
Record Message : Type := mkMessage { content : option string }.
Record Choice : Type := mkChoice { message : Message }.
Record ChatCompletion : Type := mkChatCompletion { choices : list Choice }.

(** An initialised client: one blocking request, which returns a
    completion or raises. *)
Record Client : Type := mkClient {
  chat_completions_create : Request -> outcome ChatCompletion
}.

Definition dquote : string := String "034" EmptyString.
Definition newline : string := String "010" EmptyString.

(** The two prompts, line by line as the triple-quoted f-strings spell
    them (continuation lines carry the source's indentation). *)
Definition category_prompt (topic category_desc category : string) : string :=
  "Generate 5 creative social media content ideas for " ++ dquote ++ topic ++ dquote
    ++ " specifically for " ++ category_desc ++ "." ++ newline
  ++ "            For each idea, include:" ++ newline
  ++ "            1. A catchy title (max 60 chars)" ++ newline
  ++ "            2. Brief description (1-2 sentences)" ++ newline
  ++ "            3. Content type (e.g., video, reel, story, post)" ++ newline
  ++ "            4. Estimated virality potential (low, medium, high)" ++ newline
  ++ "            5. Target audience" ++ newline
  ++ "            " ++ newline
  ++ "            Return as a JSON array with fields: title, description, content_type, virality, target_audience, category." ++ newline
  ++ "            Set category to: " ++ category.

Definition mixed_prompt (topic : string) : string :=
  "Generate 5 creative social media content ideas across different categories for "
    ++ dquote ++ topic ++ dquote ++ "." ++ newline
  ++ "            Include a mix of humor, tech, finance, fitness, and lifestyle ideas." ++ newline
  ++ "            For each idea, include:" ++ newline
  ++ "            1. A catchy title (max 60 chars)" ++ newline
  ++ "            2. Brief description (1-2 sentences)" ++ newline
  ++ "            3. Content type (e.g., video, reel, story, post)" ++ newline
  ++ "            4. Estimated virality potential (low, medium, high)" ++ newline
  ++ "            5. Target audience" ++ newline
  ++ "            6. Category (one of: humor, tech, finance, fitness, education, lifestyle)" ++ newline
  ++ "            " ++ newline
  ++ "            Return as a JSON array with fields: title, description, content_type, virality, target_audience, category.".

(** Prepare the prompt based on category *)
Definition build_prompt (topic category : string) : string :=
  if negb (category =? "all") then
    let category_desc := get CATEGORIES category "various topics" in
    category_prompt topic category_desc category
  else
    mixed_prompt topic.

Definition build_request (prompt : string) : Request :=
  mkRequest "gpt-4o"
            [ ("system", "You are a social media trend expert and content strategist.");
              ("user", prompt) ]
            [ ("type", "json_object") ]
            "0.7"
            1000.

(** ** The idea generator *)

Section Generator.

(** The module globals set at import time, and the decoder of the [json]
    library: [json_loads s] is the decoded object, or the
    [JSONDecodeError] raised. *)
Variable OPENAI_API_KEY : option string.
Variable openai : option Client.
Variable json_loads : string -> outcome value.

(** [json.loads(content)]: the argument must be a [str]. *)
Definition loads (c : option string) : outcome value :=
  match c with
  | Some s => json_loads s
  | None => Raises (TypeError "the JSON object must be str, bytes or bytearray, not NoneType")
  end.

(** [str(content)] as the last log line formats it. *)
Definition format_content (c : option string) : string :=
  match c with Some s => s | None => "None" end.

(** The body of the [try] block. *)
Definition generate_content_ideas_body (topic category : string) : M value :=
  if negb (truthy OPENAI_API_KEY) || is_None openai then
    logger_warning "Using mock data as OpenAI is not configured" ;;
    ideas <- generate_mock_content_ideas topic category ;;
    ret (ideas_value ideas)
  else
    let prompt := build_prompt topic category in
    client <- lift (match openai with
                    | Some c => Returns c
                    | None => Raises (AttributeError "'NoneType' object has no attribute 'chat'")
                    end) ;;
    response <- lift (chat_completions_create client (build_request prompt)) ;;
    (* Parse the response *)
    choice <- lift (first (choices response)) ;;
    let content := content (message choice) in
    ideas <- lift (loads content) ;;
    (* Handle different response formats *)
    if isinstance_dict ideas && value_contains ideas "ideas" then
      lift (value_getitem ideas "ideas")
    else if isinstance_list ideas then
      ret ideas
    else
      logger_error ("Unexpected response format: " ++ format_content content) ;;
      ideas <- generate_mock_content_ideas topic category ;;
      ret (ideas_value ideas).

(** Generate content ideas for a given topic and category using OpenAI *)
Definition generate_content_ideas (topic category : string) : M value :=
  try_except
    (generate_content_ideas_body topic category)
    (fun e =>
       logger_error ("Error generating content ideas: " ++ exc_str e) ;;
       ideas <- generate_mock_content_ideas topic category ;;
       ret (ideas_value ideas)).

End Generator.

(** ** Vocabulary of the specification *)

(** The content categories of the closed set ("all" is the wildcard, not
    one of them). *)
Definition specific_categories : list string :=
  ["humor"; "tech"; "finance"; "fitness"; "education"; "lifestyle"].

Definition virality_labels : list string := ["low"; "medium"; "high"].

Definition content_types : list string :=
  ["video"; "reel"; "story"; "post"; "tutorial"; "series"; "vlog"].

(** [s in t] for two strings. *)
Definition Substring (s t : string) : Prop :=
  exists before after, t = before ++ s ++ after.

(** Every idea the bank holds for a topic, category after category. *)
Definition bank_ideas (topic : string) : list ContentIdea :=
  List.concat (map snd (templates topic)).

(** The only record the fallback logs. *)
Definition mock_log (topic cat : string) : list LogRecord :=
  [(INFO, "Generating mock content ideas for " ++ topic ++ " in category " ++ cat)].

(** A computation that ends by returning the fallback ideas of
    [(topic, cat)]. *)
Definition returns_fallback (m : M value) (topic cat : string) : Prop :=
  exists ideas,
    result (generate_mock_content_ideas topic cat) = Returns ideas
    /\ result m = Returns (ideas_value ideas).

(** The data model's constraints on an idea, as the specification words
    them: a title of at most 60 characters, a virality label and a known
    content type. *)
Definition within_data_model (i : ContentIdea) : Prop :=
  String.length (title i) <= 60
  /\ In (virality i) virality_labels
  /\ In (content_type i) content_types.

(** The failures the specification lists for the live path: no credential,
    no client, a call that raises, a completion without a choice, a content
    the decoder rejects. *)
Inductive service_failure (key : option string) (openai : option Client)
          (json_loads : string -> outcome value) (topic cat : string) : Prop :=
| missing_credential :
    truthy key = false ->
    service_failure key openai json_loads topic cat
| client_not_initialised :
    openai = None ->
    service_failure key openai json_loads topic cat
| call_raises client e :
    openai = Some client ->
    chat_completions_create client (build_request (build_prompt topic cat)) = Raises e ->
    service_failure key openai json_loads topic cat
| no_choice client response :
    openai = Some client ->
    chat_completions_create client (build_request (build_prompt topic cat))
    = Returns response ->
    choices response = [] ->
    service_failure key openai json_loads topic cat
| content_unparsable client response choice rest e :
    openai = Some client ->
    chat_completions_create client (build_request (build_prompt topic cat))
    = Returns response ->
    choices response = choice :: rest ->
    loads json_loads (content (message choice)) = Raises e ->
    service_failure key openai json_loads topic cat.

(** The shapes the specification says are accepted, read as widely as its
    words allow: any array, returned as it is, or an object whose "ideas"
    field is an array, of which the field is returned. [None] stands for
    every other shape. *)
Definition spec_accepted (payload : value) : option value :=
  match payload with
  | VList _ => Some payload
  | VDict d =>
      match lookup d "ideas" with
      | Some (VList items) => Some (VList items)
      | _ => None
      end
  | _ => None
  end.

(** A client whose every completion carries one choice with the given
    content, and a decoder that knows one text. *)
Definition canned_client (text : string) : Client :=
  mkClient (fun _ => Returns (mkChatCompletion [mkChoice (mkMessage (Some text))])).

Definition decoder_of (text : string) (decoded : value) (s : string) : outcome value :=
  if s =? text then Returns decoded
  else Raises (mkException "JSONDecodeError" "Expecting value").

(** The text [{"ideas": 42}] and the object it decodes to. *)
Definition wrapped_number_text : string :=
  "{" ++ dquote ++ "ideas" ++ dquote ++ ": 42}".
Definition wrapped_number : value := VDict [("ideas", VInt 42)].

(** A live call, with a credential and a client, that receives
    [wrapped_number_text]. *)
Definition wrapped_number_call : M value :=
  generate_content_ideas (Some "sk-live") (Some (canned_client wrapped_number_text))
                         (decoder_of wrapped_number_text wrapped_number)
                         "drones" "tech".

(** ** Module initialisation *)

(** The import-time statements: [os.environ.get("OPENAI_API_KEY")], then
    the client constructor inside [try], with [openai = None] when it
    raises. [OpenAI] is the constructor of the client library. *)
Definition module_init (environ : list (string * string))
           (OpenAI : option string -> outcome Client)
  : M (option string * option Client) :=
  let OPENAI_API_KEY := lookup environ "OPENAI_API_KEY" in
  openai <- try_except
              (client <- lift (OpenAI OPENAI_API_KEY) ;; ret (Some client))
              (fun e =>
                 logger_error ("Error initializing OpenAI client: " ++ exc_str e) ;;
                 ret None) ;;
  ret (OPENAI_API_KEY, openai).

(** ** Further vocabulary *)

(** The first idea of every entry of a bank, in order (an entry without
    ideas contributes none). *)
Definition heads (A : Type) (bank : list (string * list A)) : list A :=
  flat_map (fun entry => firstn 1 (snd entry)) bank.

(** The live attempt ends with exception [e]: the call raises it, the
    completion has no choice to index, or decoding the content raises it. *)
Inductive live_attempt_raises (client : Client)
          (json_loads : string -> outcome value) (topic cat : string)
  : Exception -> Prop :=
| raised_by_call e :
    chat_completions_create client (build_request (build_prompt topic cat)) = Raises e ->
    live_attempt_raises client json_loads topic cat e
| raised_by_index response :
    chat_completions_create client (build_request (build_prompt topic cat))
    = Returns response ->
    choices response = [] ->
    live_attempt_raises client json_loads topic cat IndexError
| raised_by_decoder response choice rest e :
    chat_completions_create client (build_request (build_prompt topic cat))
    = Returns response ->
    choices response = choice :: rest ->
    loads json_loads (content (message choice)) = Raises e ->
    live_attempt_raises client json_loads topic cat e.

(** The live attempt delivers [answer]: credential and client are there,
    the first choice's content decodes, and the payload is an array
    ([answer] is the payload) or an object with the key "ideas" ([answer]
    is the value under it). *)
Inductive service_answers (key : option string) (openai : option Client)
          (json_loads : string -> outcome value) (topic cat : string)
  : value -> Prop :=
| answers_array client response choice rest text items :
    truthy key = true ->
    openai = Some client ->
    chat_completions_create client (build_request (build_prompt topic cat))
    = Returns response ->
    choices response = choice :: rest ->
    content (message choice) = Some text ->
    json_loads text = Returns (VList items) ->
    service_answers key openai json_loads topic cat (VList items)
| answers_wrapper client response choice rest text entries answer :
    truthy key = true ->
    openai = Some client ->
    chat_completions_create client (build_request (build_prompt topic cat))
    = Returns response ->
    choices response = choice :: rest ->
    content (message choice) = Some text ->
    json_loads text = Returns (VDict entries) ->
    lookup entries "ideas" = Some answer ->
    service_answers key openai json_loads topic cat answer.

(** A computation that logs [record], then runs the fallback for
    [(topic, cat)] and returns its ideas: the whole of its log is [record]
    followed by the fallback's own record. *)
Definition falls_back_logging (m : M value) (topic cat : string)
           (record : LogRecord) : Prop :=
  exists ideas,
    generate_mock_content_ideas topic cat = (mock_log topic cat, Returns ideas)
    /\ m = (record :: mock_log topic cat, Returns (ideas_value ideas)).

(** A constructor that needs a credential, as the client library's does. *)
Definition strict_constructor (client : Client) (key : option string)
  : outcome Client :=
  match key with
  | Some _ => Returns client
  | None => Raises (mkException "OpenAIError" "The api_key client option must be set")
  end.

(** A client that serves only the model the module asks for, and one
    whose completions carry a second choice. *)
Definition model_bound_client (text : string) : Client :=
  mkClient (fun request =>
              if model request =? "gpt-4o"
              then Returns (mkChatCompletion [mkChoice (mkMessage (Some text))])
              else Raises (mkException "NotFoundError" "The model does not exist")).

Definition two_choice_client (text other : string) : Client :=
  mkClient (fun _ => Returns (mkChatCompletion
                                [mkChoice (mkMessage (Some text));
                                 mkChoice (mkMessage (Some other))])).

(** ** The fallback among objects

    The same function once more, now with the objects a call creates: a
    [dict] or [list] display allocates a new object, a name holds a
    reference, and [append] mutates the list it is applied to. A call runs
    in a world that holds the module's globals and every object alive, so
    that what a body reads or changes outside its arguments can be said. *)

Definition addr : Type := nat.

(** What a [dict] value or a variable holds: a string (immutable, kept by
    value) or a reference to an object. *)
Inductive slot : Type :=
| SStr (s : string)
| SRef (a : addr).

Inductive object : Type :=
| ODict (entries : list (string * slot))
| OList (items : list addr).

(** The heap, newest object first: the address of an object is the number
    of objects allocated before it. *)
Definition heap : Type := list object.

Fixpoint deref (h : heap) (a : addr) : option object :=
  match h with
  | [] => None
  | o :: older => if (a =? List.length older)%nat then Some o else deref older a
  end.

Fixpoint update (h : heap) (a : addr) (o : object) : heap :=
  match h with
  | [] => []
  | o' :: older =>
      if (a =? List.length older)%nat then o :: older else o' :: update older a o
  end.

(** The module globals and the heap. *)
Record World : Type := mkWorld {
  global_OPENAI_API_KEY : option string;
  global_openai : option Client;
  global_CATEGORIES : list (string * string);
  objects : heap
}.

Definition with_objects (w : World) (h : heap) : World :=
  mkWorld (global_OPENAI_API_KEY w) (global_openai w) (global_CATEGORIES w) h.

(** A computation in a world: the records logged, the world it leaves and
    how it ended. *)
Definition W (A : Type) : Type := World -> (list LogRecord * World * outcome A)%type.

Definition unit_W {A} (a : A) : W A := fun w => ([], w, Returns a).
Definition raise_W {A} (e : Exception) : W A := fun w => ([], w, Raises e).

Definition bind_W {A B} (m : W A) (k : A -> W B) : W B :=
  fun w =>
    match m w with
    | (logs, w', Returns a) =>
        match k a w' with (logs', w'', r) => ((logs ++ logs')%list, w'', r) end
    | (logs, w', Raises e) => (logs, w', Raises e)
    end.

Definition log_W (lvl : Level) (msg : string) : W unit :=
  fun w => ([(lvl, msg)], w, Returns tt).

Declare Scope world_scope.
Delimit Scope world_scope with world.
Notation "x <- c ;; k" := (bind_W c (fun x => k))
  (at level 61, c at next level, right associativity) : world_scope.
Notation "c ;; k" := (bind_W c (fun _ => k))
  (at level 61, right associativity) : world_scope.

(** Allocation by a display, and access through a reference. *)
Definition new (o : object) : W addr :=
  fun w => ([], with_objects w (o :: objects w), Returns (List.length (objects w))).

Definition load (a : addr) : W object :=
  fun w =>
    match deref (objects w) a with
    | Some o => ([], w, Returns o)
    | None => ([], w, Raises (mkException "SystemError" "dangling reference"))
    end.

Definition store (a : addr) (o : object) : W unit :=
  fun w => ([], with_objects w (update (objects w) a o), Returns tt).

(** [d[key]], [d.get(key, default)] and the keys of [for k in d], for a
    reference [d]. The function applies them to its [templates] only,
    which is a [dict] and is not changed while the loop runs. *)
Definition subscript (d : addr) (key : string) : W slot :=
  (o <- load d ;;
   match o with
   | ODict entries =>
       match lookup entries key with
       | Some v => unit_W v
       | None => raise_W (KeyError key)
       end
   | OList _ => raise_W (TypeError "list indices must be integers or slices, not str")
   end)%world.

Definition dict_get (d : addr) (key : string) (default : slot) : W slot :=
  (o <- load d ;;
   match o with
   | ODict entries => unit_W (get entries key default)
   | OList _ => raise_W (AttributeError "'list' object has no attribute 'get'")
   end)%world.

Definition dict_keys (d : addr) : W (list string) :=
  (o <- load d ;;
   match o with
   | ODict entries => unit_W (keys entries)
   | OList _ => unit_W []
   end)%world.

(** [l[0]], [l.append(x)] and [len(l)], for a slot [l]. The function
    applies them to the lists of the bank and to [mixed_ideas] only. *)
Definition the_list (l : slot) : W (addr * list addr) :=
  match l with
  | SRef a =>
      (o <- load a ;;
       match o with
       | OList items => unit_W (a, items)
       | ODict _ => raise_W (TypeError "not a list")
       end)%world
  | SStr _ => raise_W (TypeError "not a list")
  end.

Definition index0 (l : slot) : W addr :=
  (p <- the_list l ;;
   match snd p with
   | x :: _ => unit_W x
   | [] => raise_W IndexError
   end)%world.

Definition list_append (l : slot) (x : addr) : W unit :=
  (p <- the_list l ;; store (fst p) (OList (snd p ++ [x])))%world.

Definition len (l : slot) : W nat :=
  (p <- the_list l ;; unit_W (List.length (snd p)))%world.

(** The displays of the template bank: every idea is a new [dict], every
    category a new [list] of them, and the bank a new [dict] of those, each
    allocated once its parts are. *)
Definition idea_object (i : ContentIdea) : object :=
  ODict [ ("title", SStr (title i));
          ("description", SStr (description i));
          ("content_type", SStr (content_type i));
          ("virality", SStr (virality i));
          ("target_audience", SStr (target_audience i));
          ("category", SStr (category i)) ].

Fixpoint new_ideas (ideas : list ContentIdea) : W (list addr) :=
  match ideas with
  | [] => unit_W []
  | i :: rest =>
      (a <- new (idea_object i) ;;
       others <- new_ideas rest ;;
       unit_W (a :: others))%world
  end.

Fixpoint new_entries (bank : list (string * list ContentIdea))
  : W (list (string * slot)) :=
  match bank with
  | [] => unit_W []
  | (key, ideas) :: rest =>
      (items <- new_ideas ideas ;;
       l <- new (OList items) ;;
       others <- new_entries rest ;;
       unit_W ((key, SRef l) :: others))%world
  end.

Definition new_templates (topic : string) : W addr :=
  (entries <- new_entries (templates topic) ;; new (ODict entries))%world.

(** The loop of the "all" branch over references. *)
Fixpoint mix_loop_refs (bank : addr) (cats : list string) (mixed_ideas : slot)
  : W slot :=
  match cats with
  | [] => unit_W mixed_ideas
  | cat :: rest =>
      (ideas <- subscript bank cat ;;
       idea <- index0 ideas ;;
       list_append mixed_ideas idea ;;
       n <- len mixed_ideas ;;
       if (5 <=? n)%nat then unit_W mixed_ideas
       else mix_loop_refs bank rest mixed_ideas)%world
  end.

(** [generate_mock_content_ideas], returning the reference its caller
    receives. *)
Definition generate_mock_content_ideas_refs (topic category : string) : W slot :=
  (log_W INFO ("Generating mock content ideas for " ++ topic
               ++ " in category " ++ category) ;;
   templates <- new_templates topic ;;
   if negb (category =? "all") then
     default <- subscript templates "humor" ;;
     dict_get templates category default
   else
     mixed_ideas <- new (OList []) ;;
     cats <- dict_keys templates ;;
     mix_loop_refs templates cats (SRef mixed_ideas))%world.

(** Reading a result back: the ideas a reference to a list of idea
    [dict]s stands for. *)
Definition read_field (entries : list (string * slot)) (key : string)
  : option string :=
  match lookup entries key with
  | Some (SStr s) => Some s
  | _ => None
  end.

Definition read_idea (h : heap) (a : addr) : option ContentIdea :=
  match deref h a with
  | Some (ODict entries) =>
      match read_field entries "title", read_field entries "description",
            read_field entries "content_type", read_field entries "virality",
            read_field entries "target_audience", read_field entries "category"
      with
      | Some t, Some d, Some c, Some v, Some a, Some k => Some (mkIdea t d c v a k)
      | _, _, _, _, _, _ => None
      end
  | _ => None
  end.

Fixpoint read_each (h : heap) (items : list addr) : option (list ContentIdea) :=
  match items with
  | [] => Some []
  | a :: rest =>
      match read_idea h a, read_each h rest with
      | Some i, Some others => Some (i :: others)
      | _, _ => None
      end
  end.

Definition read_ideas (h : heap) (r : slot) : option (list ContentIdea) :=
  match r with
  | SRef a =>
      match deref h a with
      | Some (OList items) => read_each h items
      | _ => None
      end
  | SStr _ => None
  end.

(** The list [r] refers to, and every idea in it, was allocated after the
    objects of [old]: nothing the caller held aliases the result. *)
Definition fresh_result (old h : heap) (r : slot) : Prop :=
  match r with
  | SRef a =>
      List.length old <= a
      /\ match deref h a with
         | Some (OList items) => Forall (fun i => List.length old <= i) items
         | _ => False
         end
  | SStr _ => False
  end.

(** Addresses and worlds relative to a starting world [w]: the [k]-th
    object allocated since, and [w] with the objects [newer] added in
    front of its own. *)
Definition above (w : World) (k : nat) : addr := k + List.length (objects w).
Arguments above : simpl never.

Definition grown (w : World) (newer : heap) : World :=
  with_objects w (newer ++ objects w)%list.

(** What the displays of a bank add to the heap when [base] objects were
    allocated before, and the entries of the resulting [dict]. *)
Fixpoint entries_heap (w : World) (base : nat)
         (bank : list (string * list ContentIdea)) : heap :=
  match bank with
  | [] => []
  | (_, ideas) :: rest =>
      (entries_heap w (S (List.length ideas + base)) rest
       ++ OList (map (above w) (seq base (List.length ideas)))
          :: rev (map idea_object ideas))%list
  end.

Fixpoint entries_slots (w : World) (base : nat)
         (bank : list (string * list ContentIdea)) : list (string * slot) :=
  match bank with
  | [] => []
  | (key, ideas) :: rest =>
      (key, SRef (above w (List.length ideas + base)))
        :: entries_slots w (S (List.length ideas + base)) rest
  end.

Definition templates_heap (w : World) (topic : string) : heap :=
  ODict (entries_slots w 0 (templates topic))
    :: entries_heap w 0 (templates topic).

(** * Properties *)

(** ** Strings and lookups *)

Lemma append_empty_r (s : string) : s ++ EmptyString = s.
Proof. induction s as [|c s IH]; simpl; [reflexivity | now rewrite IH]. Qed.

Lemma length_append (s t : string) :
  String.length (s ++ t) = String.length s + String.length t.
Proof. induction s as [|c s IH]; simpl; [reflexivity | now rewrite IH]. Qed.

Lemma lookup_In (V : Type) (d : list (string * V)) (key : string) (v : V) :
  lookup d key = Some v -> In v (map snd d).
Proof.
  induction d as [|[k w] d IH]; simpl; [discriminate|].
  destruct (String.eqb k key).
  - intros [= ->]. now left.
  - intros H. right. now apply IH.
Qed.

Lemma lookup_absent (V : Type) (d : list (string * V)) (key : string) :
  ~ In key (keys d) -> lookup d key = None.
Proof.
  induction d as [|[k w] d IH]; simpl; [reflexivity|].
  intros H. destruct (String.eqb_spec k key) as [->|_].
  - exfalso. apply H. now left.
  - apply IH. intros Hin. apply H. now right.
Qed.

Lemma get_from_bank (V : Type) (d : list (string * V)) (key : string) (default : V) :
  In default (map snd d) -> In (get d key default) (map snd d).
Proof.
  unfold get. destruct (lookup d key) eqn:E; [intros _ | trivial].
  eapply lookup_In; eassumption.
Qed.

(** ** The fallback generator, branch by branch *)

Lemma mock_specific (topic cat : string) :
  cat <> "all" ->
  exists humor,
    getitem (templates topic) "humor" = Returns humor
    /\ generate_mock_content_ideas topic cat
       = (mock_log topic cat, Returns (get (templates topic) cat humor)).
Proof.
  intros Hne. eexists. split; [reflexivity|].
  unfold generate_mock_content_ideas.
  apply String.eqb_neq in Hne. rewrite Hne. reflexivity.
Qed.

Lemma mock_all (topic : string) :
  exists ideas,
    generate_mock_content_ideas topic "all" = (mock_log topic "all", Returns ideas)
    /\ Forall2 (fun idea entry =>
                  first (snd entry) = Returns idea /\ category idea = fst entry)
               ideas (firstn 5 (templates topic)).
Proof.
  eexists. split; [reflexivity|].
  simpl. repeat constructor.
Qed.

Lemma mock_returns (topic cat : string) :
  exists ideas,
    generate_mock_content_ideas topic cat = (mock_log topic cat, Returns ideas)
    /\ incl ideas (bank_ideas topic).
Proof.
  destruct (String.eqb_spec cat "all") as [->|Hne].
  - eexists. split; [reflexivity|].
    intros i Hi. simpl in Hi. unfold bank_ideas. simpl. tauto.
  - destruct (mock_specific topic Hne) as (humor & Hh & Heq).
    eexists. split; [exact Heq|].
    intros i Hi. unfold bank_ideas. apply in_concat.
    exists (get (templates topic) cat humor). split; [|exact Hi].
    apply get_from_bank. injection Hh as <-. simpl. tauto.
Qed.

(** ** What the bank holds *)

Ltac topic_inside :=
  match goal with
  | |- Substring ?s (?s ++ ?post) => exists EmptyString, post; reflexivity
  | |- Substring ?s (?pre ++ ?s ++ ?post) => exists pre, post; reflexivity
  | |- Substring ?s (?pre ++ ?s) =>
      exists pre, EmptyString; now rewrite append_empty_r
  end.

Lemma bank_mentions_topic (topic : string) :
  Forall (fun i => Substring topic (title i) /\ Substring topic (description i))
         (bank_ideas topic).
Proof.
  unfold bank_ideas; cbn [templates map snd List.concat List.app].
  repeat (apply Forall_cons; [cbn [title description]; split; topic_inside|]).
  apply Forall_nil.
Qed.

Ltac title_length :=
  cbn [title]; repeat (rewrite length_append; cbn [String.length]); lia.

Lemma bank_fields (topic : string) :
  Forall (fun i => String.length (title i) <= String.length topic + 34
                   /\ In (virality i) virality_labels
                   /\ In (content_type i) content_types)
         (bank_ideas topic).
Proof.
  unfold bank_ideas; cbn [templates map snd List.concat List.app].
  repeat (apply Forall_cons;
          [split; [title_length | split; cbn; tauto]|]).
  apply Forall_nil.
Qed.

Lemma Forall_incl (A : Type) (P : A -> Prop) (small big : list A) :
  incl small big -> Forall P big -> Forall P small.
Proof.
  intros Hincl Hbig. apply Forall_forall. intros x Hx.
  eapply Forall_forall; [exact Hbig | now apply Hincl].
Qed.

(** ** The fallback template bank *)

(** C2. For every topic and each of the six specific categories, the
    fallback returns exactly 2 ideas, and each of them carries the
    requested category in its [category] field. *)
Theorem mock_specific_category_two_ideas (topic cat : string) :
  In cat specific_categories ->
  exists ideas,
    result (generate_mock_content_ideas topic cat) = Returns ideas
    /\ List.length ideas = 2
    /\ Forall (fun i => category i = cat) ideas.
Proof.
  intros Hin. unfold specific_categories in Hin. simpl in Hin.
  repeat (destruct Hin as [<-|Hin];
          [eexists; split; [reflexivity | split; [reflexivity | repeat constructor]]|]).
  contradiction.
Qed.

Lemma mock_specific_category_two_ideas_witness :
  In "fitness" specific_categories
  /\ exists ideas,
       result (generate_mock_content_ideas "yoga" "fitness") = Returns ideas
       /\ List.length ideas = 2
       /\ Forall (fun i => category i = "fitness") ideas.
Proof.
  split.
  - simpl; tauto.
  - apply (@mock_specific_category_two_ideas "yoga" "fitness"). simpl; tauto.
Defined.

(** C3. For every topic, the fallback with category "all" returns exactly
    5 ideas; their categories are pairwise distinct, and the ideas are the
    first template of each category, taken in the bank's enumeration order
    and cut off after the fifth. *)
Theorem mock_all_five_distinct (topic : string) :
  exists ideas,
    result (generate_mock_content_ideas topic "all") = Returns ideas
    /\ List.length ideas = 5
    /\ NoDup (map category ideas)
    /\ Forall2 (fun idea entry =>
                  first (snd entry) = Returns idea /\ category idea = fst entry)
               ideas (firstn 5 (templates topic)).
Proof.
  destruct (mock_all topic) as (ideas & Heq & Hrep).
  exists ideas. split; [now rewrite Heq|].
  cbn [templates firstn] in Hrep.
  repeat match goal with
         | H : Forall2 _ _ (_ :: _) |- _ => inversion H; subst; clear H
         | H : Forall2 _ _ [] |- _ => inversion H; subst; clear H
         | H : _ /\ _ |- _ => destruct H
         end.
  split; [reflexivity|]. split.
  - cbn [map]. repeat match goal with H : category _ = _ |- _ => rewrite H; clear H end.
    repeat (constructor; [simpl; intuition discriminate|]). constructor.
  - cbn [templates firstn]. repeat constructor; assumption.
Qed.

(** C10. For every topic, the categories of the "all" fallback are, in
    this order, humor, tech, finance, fitness, education; no lifestyle
    idea is among them. *)
Theorem mock_all_category_order (topic : string) :
  exists ideas,
    result (generate_mock_content_ideas topic "all") = Returns ideas
    /\ map category ideas = ["humor"; "tech"; "finance"; "fitness"; "education"]
    /\ Forall (fun i => category i <> "lifestyle") ideas.
Proof.
  eexists. split; [reflexivity|]. split; [reflexivity|].
  repeat constructor; discriminate.
Qed.

(** C5. With topic "drones" and category "tech" the fallback returns
    exactly 2 ideas, the first one titled
    "5 drones Hacks You Never Knew Existed". *)
Theorem mock_drones_tech :
  exists first_idea second_idea,
    result (generate_mock_content_ideas "drones" "tech")
    = Returns [first_idea; second_idea]
    /\ title first_idea = "5 drones Hacks You Never Knew Existed".
Proof. do 2 eexists. split; reflexivity. Qed.

(** C4. For every topic and every category string, each idea the fallback
    returns has the topic inside its title and inside its description. *)
Theorem mock_topic_in_title_and_description (topic cat : string) :
  exists ideas,
    result (generate_mock_content_ideas topic cat) = Returns ideas
    /\ Forall (fun i => Substring topic (title i)
                        /\ Substring topic (description i)) ideas.
Proof.
  destruct (mock_returns topic cat) as (ideas & Heq & Hincl).
  exists ideas. split; [now rewrite Heq|].
  eapply Forall_incl; [exact Hincl | apply bank_mentions_topic].
Qed.

(** C9. For every topic and every category string that is neither one of
    the six specific categories nor "all", the fallback does not fail: it
    returns the 2 humor templates, whose [category] fields read "humor"
    and so differ from the requested value. *)
Theorem mock_unknown_category_humor (topic cat : string) :
  ~ In cat specific_categories ->
  cat <> "all" ->
  exists idea1 idea2,
    result (generate_mock_content_ideas topic cat) = Returns [idea1; idea2]
    /\ getitem (templates topic) "humor" = Returns [idea1; idea2]
    /\ category idea1 = "humor" /\ category idea2 = "humor"
    /\ category idea1 <> cat /\ category idea2 <> cat.
Proof.
  intros Hout Hne.
  destruct (mock_specific topic Hne) as (humor & Hh & Heq).
  assert (Hget : get (templates topic) cat humor = humor).
  { unfold get. now rewrite (lookup_absent (templates topic) cat Hout). }
  rewrite Hget in Heq. injection Hh as <-.
  do 2 eexists. split; [rewrite Heq; reflexivity|].
  split; [reflexivity|]. cbn [category].
  assert (Hhumor : "humor" <> cat).
  { intros <-. apply Hout. simpl; tauto. }
  repeat split; assumption.
Qed.

Lemma mock_unknown_category_humor_witness :
  ~ In "sports" specific_categories
  /\ "sports" <> "all"
  /\ exists idea1 idea2,
       result (generate_mock_content_ideas "drones" "sports") = Returns [idea1; idea2]
       /\ getitem (templates "drones") "humor" = Returns [idea1; idea2]
       /\ category idea1 = "humor" /\ category idea2 = "humor"
       /\ category idea1 <> "sports" /\ category idea2 <> "sports".
Proof.
  assert (Hout : ~ In "sports" specific_categories)
    by (simpl; intuition discriminate).
  assert (Hne : "sports" <> "all") by discriminate.
  split; [exact Hout|]. split; [exact Hne|].
  exact (@mock_unknown_category_humor "drones" "sports" Hout Hne).
Defined.

(** C7 fails on the title bound: a topic of 27 characters in category
    "finance" yields a first title of 61 characters. *)
Lemma mock_title_exceeds_60 :
  exists ideas,
    result (generate_mock_content_ideas "sustainable urban gardening" "finance")
    = Returns ideas
    /\ ~ Forall within_data_model ideas.
Proof.
  eexists. split; [reflexivity|].
  intros H. inversion H as [|i rest Hi _]; subst.
  destruct Hi as [Hlen _]. vm_compute in Hlen.
  repeat apply le_S_n in Hlen. inversion Hlen.
Qed.

(** C7, amended. For every topic and category, every idea of the fallback
    has a title of at most 34 characters more than the topic, hence of at
    most 60 characters whenever the topic has at most 26; its virality is
    one of low, medium, high and its content type one of video, reel,
    story, post, tutorial, series, vlog. *)
Theorem mock_idea_fields (topic cat : string) :
  exists ideas,
    result (generate_mock_content_ideas topic cat) = Returns ideas
    /\ Forall (fun i => String.length (title i) <= String.length topic + 34
                        /\ In (virality i) virality_labels
                        /\ In (content_type i) content_types) ideas
    /\ (String.length topic <= 26 -> Forall within_data_model ideas).
Proof.
  destruct (mock_returns topic cat) as (ideas & Heq & Hincl).
  assert (Hall := Forall_incl Hincl (bank_fields topic)).
  exists ideas. split; [now rewrite Heq|]. split; [exact Hall|].
  intros Hshort. eapply Forall_impl; [|exact Hall].
  intros i (Hlen & Hv & Hc). unfold within_data_model.
  split; [lia | split; assumption].
Qed.

Lemma mock_idea_fields_witness :
  String.length "drones" <= 26
  /\ exists ideas,
       result (generate_mock_content_ideas "drones" "all") = Returns ideas
       /\ Forall within_data_model ideas.
Proof.
  assert (Hshort : String.length "drones" <= 26) by (simpl; lia).
  split; [exact Hshort|].
  destruct (mock_idea_fields "drones" "all") as (ideas & Heq & _ & Hmodel).
  exists ideas. split; [exact Heq | exact (Hmodel Hshort)].
Defined.

(** ** The fallback among objects *)

Lemma deref_absent (h : heap) (a : addr) :
  List.length h <= a -> deref h a = None.
Proof.
  induction h as [|o older IH]; cbn; [reflexivity|]. intros Hle.
  destruct (Nat.eqb_spec a (List.length older)); [lia|]. apply IH. lia.
Qed.

Lemma deref_above (w : World) (newer : heap) (k : nat) :
  deref (newer ++ objects w)%list (above w k) = deref newer k.
Proof.
  unfold above. induction newer as [|o older IH]; cbn.
  - apply deref_absent. lia.
  - rewrite length_app.
    destruct (Nat.eqb_spec k (List.length older)) as [->|Hne].
    + now rewrite Nat.eqb_refl.
    + destruct (Nat.eqb_spec (k + List.length (objects w))
                             (List.length older + List.length (objects w)));
        [lia | exact IH].
Qed.

Lemma update_absent (h : heap) (a : addr) (o : object) :
  List.length h <= a -> update h a o = h.
Proof.
  induction h as [|o' older IH]; cbn; [reflexivity|]. intros Hle.
  destruct (Nat.eqb_spec a (List.length older)); [lia|]. rewrite IH; [reflexivity|lia].
Qed.

Lemma update_above (w : World) (newer : heap) (k : nat) (o : object) :
  update (newer ++ objects w)%list (above w k) o = (update newer k o ++ objects w)%list.
Proof.
  unfold above. induction newer as [|o' older IH]; cbn.
  - apply update_absent. lia.
  - rewrite length_app.
    destruct (Nat.eqb_spec k (List.length older)) as [->|Hne].
    + now rewrite Nat.eqb_refl.
    + destruct (Nat.eqb_spec (k + List.length (objects w))
                             (List.length older + List.length (objects w)));
        [lia | now rewrite IH].
Qed.

(** Steps of a run in a grown world. *)

Lemma bind_W_step (A B : Type) (m : W A) (k : A -> W B) (w w1 : World)
      (logs : list LogRecord) (a : A) :
  m w = (logs, w1, Returns a) ->
  bind_W m k w
  = match k a w1 with (logs', w2, r) => ((logs ++ logs')%list, w2, r) end.
Proof. intros H. unfold bind_W. now rewrite H. Qed.

Lemma new_grown (w : World) (newer : heap) (o : object) :
  new o (grown w newer)
  = ([], grown w (o :: newer), Returns (above w (List.length newer))).
Proof.
  unfold new, grown, above, with_objects. cbn. now rewrite length_app.
Qed.

Lemma load_grown (w : World) (newer : heap) (k : nat) (o : object) :
  deref newer k = Some o ->
  load (above w k) (grown w newer) = ([], grown w newer, Returns o).
Proof.
  intros H. unfold load, grown. cbn. now rewrite deref_above, H.
Qed.

Lemma store_grown (w : World) (newer : heap) (k : nat) (o : object) :
  store (above w k) o (grown w newer)
  = ([], grown w (update newer k o), Returns tt).
Proof.
  unfold store, grown, with_objects. cbn. now rewrite update_above.
Qed.

Lemma subscript_grown (w : World) (newer : heap) (d : nat) (key : string)
      (entries : list (string * slot)) (v : slot) :
  deref newer d = Some (ODict entries) ->
  lookup entries key = Some v ->
  subscript (above w d) key (grown w newer) = ([], grown w newer, Returns v).
Proof.
  intros Hd Hk. unfold subscript.
  erewrite bind_W_step by (eapply load_grown; eassumption || reflexivity).
  cbv beta iota. now rewrite Hk.
Qed.

Lemma dict_get_grown (w : World) (newer : heap) (d : nat) (key : string)
      (entries : list (string * slot)) (default : slot) :
  deref newer d = Some (ODict entries) ->
  dict_get (above w d) key default (grown w newer)
  = ([], grown w newer, Returns (get entries key default)).
Proof.
  intros Hd. unfold dict_get.
  now erewrite bind_W_step by (eapply load_grown; eassumption || reflexivity).
Qed.

Lemma dict_keys_grown (w : World) (newer : heap) (d : nat)
      (entries : list (string * slot)) :
  deref newer d = Some (ODict entries) ->
  dict_keys (above w d) (grown w newer)
  = ([], grown w newer, Returns (keys entries)).
Proof.
  intros Hd. unfold dict_keys.
  now erewrite bind_W_step by (eapply load_grown; eassumption || reflexivity).
Qed.

Lemma the_list_grown (w : World) (newer : heap) (l : nat) (items : list addr) :
  deref newer l = Some (OList items) ->
  the_list (SRef (above w l)) (grown w newer)
  = ([], grown w newer, Returns (above w l, items)).
Proof.
  intros Hl. unfold the_list.
  now erewrite bind_W_step by (eapply load_grown; eassumption || reflexivity).
Qed.

Lemma index0_grown (w : World) (newer : heap) (l : nat) (x : addr)
      (others : list addr) :
  deref newer l = Some (OList (x :: others)) ->
  index0 (SRef (above w l)) (grown w newer) = ([], grown w newer, Returns x).
Proof.
  intros Hl. unfold index0.
  now erewrite bind_W_step by (eapply the_list_grown; eassumption || reflexivity).
Qed.

Lemma list_append_grown (w : World) (newer : heap) (l : nat) (x : addr)
      (items : list addr) :
  deref newer l = Some (OList items) ->
  list_append (SRef (above w l)) x (grown w newer)
  = ([], grown w (update newer l (OList (items ++ [x])%list)), Returns tt).
Proof.
  intros Hl. unfold list_append.
  erewrite bind_W_step by (eapply the_list_grown; eassumption || reflexivity). cbn [fst snd].
  now rewrite store_grown.
Qed.

Lemma len_grown (w : World) (newer : heap) (l : nat) (items : list addr) :
  deref newer l = Some (OList items) ->
  len (SRef (above w l)) (grown w newer)
  = ([], grown w newer, Returns (List.length items)).
Proof.
  intros Hl. unfold len.
  now erewrite bind_W_step by (eapply the_list_grown; eassumption || reflexivity).
Qed.

(** The displays. *)

Lemma new_ideas_grown (w : World) (ideas : list ContentIdea) (newer : heap) :
  new_ideas ideas (grown w newer)
  = ([], grown w (rev (map idea_object ideas) ++ newer)%list,
     Returns (map (above w) (seq (List.length newer) (List.length ideas)))).
Proof.
  revert newer. induction ideas as [|i rest IH]; intros newer; [reflexivity|].
  cbn [new_ideas]. erewrite bind_W_step by (apply new_grown).
  erewrite bind_W_step by (apply IH).
  cbn [unit_W map rev List.length seq app]. now rewrite <- app_assoc.
Qed.

Lemma new_entries_grown (w : World) (bank : list (string * list ContentIdea))
      (newer : heap) :
  new_entries bank (grown w newer)
  = ([], grown w (entries_heap w (List.length newer) bank ++ newer)%list,
     Returns (entries_slots w (List.length newer) bank)).
Proof.
  revert newer. induction bank as [|[key ideas] rest IH]; intros newer;
    [reflexivity|].
  cbn [new_entries]. erewrite bind_W_step by (apply new_ideas_grown).
  erewrite bind_W_step by (apply new_grown).
  erewrite bind_W_step by (apply IH).
  cbn [unit_W app entries_heap entries_slots List.length].
  rewrite length_app, length_rev, length_map.
  now rewrite <- app_assoc.
Qed.

Lemma new_templates_grown (w : World) (topic : string) :
  new_templates topic (grown w [])
  = ([], grown w (templates_heap w topic), Returns (above w 18)).
Proof.
  unfold new_templates.
  erewrite bind_W_step by (apply new_entries_grown).
  rewrite new_grown. cbn [List.length]. rewrite app_nil_r. reflexivity.
Qed.

(** Reading back from a grown heap. *)

Lemma read_each_above (w : World) (newer : heap) (items : list addr)
      (places : list nat) :
  Forall2 (fun a k => a = above w k) items places ->
  read_each (newer ++ objects w)%list items = read_each newer places.
Proof.
  induction 1 as [|a k items places -> _ IH]; [reflexivity|].
  cbn [read_each]. rewrite IH. unfold read_idea. now rewrite deref_above.
Qed.

Lemma result_among_objects (w : World) (newer : heap) (k : nat)
      (items : list addr) (places : list nat) (ideas : list ContentIdea) :
  deref newer k = Some (OList items) ->
  Forall2 (fun a j => a = above w j) items places ->
  read_each newer places = Some ideas ->
  read_ideas (newer ++ objects w)%list (SRef (above w k)) = Some ideas
  /\ fresh_result (objects w) (newer ++ objects w)%list (SRef (above w k)).
Proof.
  intros Hk Hitems Hread. unfold read_ideas, fresh_result.
  rewrite deref_above, Hk. split; [|split].
  - now erewrite read_each_above by eassumption.
  - unfold above. lia.
  - clear Hk Hread. induction Hitems as [|a j items places -> _ IH];
      constructor; [unfold above; lia | exact IH].
Qed.

(** The two branches, run from any world. *)

Ltac step lem :=
  erewrite bind_W_step by (eapply lem; reflexivity); cbv beta iota.

Lemma refs_specific (w : World) (topic cat : string) :
  cat <> "all" ->
  generate_mock_content_ideas_refs topic cat (grown w [])
  = (mock_log topic cat, grown w (templates_heap w topic),
     Returns (get (entries_slots w 0 (templates topic)) cat (SRef (above w 2)))).
Proof.
  intros Hne. apply String.eqb_neq in Hne.
  unfold generate_mock_content_ideas_refs. rewrite Hne. cbn [negb].
  erewrite bind_W_step by reflexivity. cbv beta iota.
  step new_templates_grown.
  step subscript_grown.
  erewrite dict_get_grown by reflexivity. reflexivity.
Qed.

Lemma refs_all (w : World) (topic : string) :
  generate_mock_content_ideas_refs topic "all" (grown w [])
  = (mock_log topic "all",
     grown w (OList [above w 0; above w 3; above w 6; above w 9; above w 12]
                :: templates_heap w topic),
     Returns (SRef (above w 19))).
Proof.
  unfold generate_mock_content_ideas_refs. cbn [String.eqb Ascii.eqb Bool.eqb negb].
  erewrite bind_W_step by reflexivity. cbv beta iota.
  step new_templates_grown.
  step new_grown.
  step dict_keys_grown.
  cbn [keys map fst entries_slots templates].
  do 5 (cbn [mix_loop_refs];
        step subscript_grown; step index0_grown; step list_append_grown;
        step len_grown; cbn [List.length Nat.leb update app Nat.eqb]).
  reflexivity.
Qed.


(** ** The idea generator *)

(** Name the fallback's result, so that the generator can be run
    symbolically around it. *)
Ltac name_fallback topic cat ideas :=
  let Hmock := fresh "Hmock" in
  let mock := fresh "mock" in
  let E := fresh "E" in
  destruct (mock_returns topic cat) as (ideas & Hmock & _);
  unfold returns_fallback, generate_content_ideas, generate_content_ideas_body;
  remember (generate_mock_content_ideas topic cat) as mock eqn:E;
  rewrite Hmock in E; subst mock.

Ltac fallback_with ideas := exists ideas; split; reflexivity.

(** C1. For every credential, client, decoder, topic and category,
    [generate_content_ideas] returns a value and never raises; and when
    the credential is missing, the client was not initialised, the call
    raises, the completion has no choice, or its content cannot be decoded,
    the value returned is the fallback's list of ideas for
    [(topic, category)]. *)
Theorem generate_content_ideas_never_raises
        (key : option string) (openai : option Client)
        (json_loads : string -> outcome value) (topic cat : string) :
  (exists v,
     result (generate_content_ideas key openai json_loads topic cat) = Returns v)
  /\ (service_failure key openai json_loads topic cat ->
      returns_fallback (generate_content_ideas key openai json_loads topic cat)
                       topic cat).
Proof.
  split.
  - name_fallback topic cat ideas.
    destruct (truthy key); destruct openai as [client|]; cbn;
      try (eexists; reflexivity).
    destruct (chat_completions_create client _) as [response|e]; cbn;
      [|eexists; reflexivity].
    destruct (choices response) as [|choice rest]; cbn;
      [eexists; reflexivity|].
    destruct (content (message choice)) as [text|]; cbn;
      [|eexists; reflexivity].
    destruct (json_loads text) as [payload|e]; cbn;
      [|eexists; reflexivity].
    destruct payload; cbn; try (eexists; reflexivity).
    unfold contains, getitem.
    destruct (lookup entries "ideas"); cbn; eexists; reflexivity.
  - intros Hfail. name_fallback topic cat ideas.
    destruct Hfail as [Hkey | Hnone | client e Hsome Hcall
                       | client response Hsome Hcall Hchoices
                       | client response choice rest e Hsome Hcall Hchoices Hloads].
    + rewrite Hkey. cbn. fallback_with ideas.
    + rewrite Hnone. destruct (truthy key); cbn; fallback_with ideas.
    + rewrite Hsome. destruct (truthy key); cbn; [rewrite Hcall; cbn|];
        fallback_with ideas.
    + rewrite Hsome. destruct (truthy key); cbn;
        [rewrite Hcall; cbn; rewrite Hchoices; cbn|];
        fallback_with ideas.
    + rewrite Hsome. destruct (truthy key); cbn;
        [rewrite Hcall; cbn; rewrite Hchoices; cbn; rewrite Hloads; cbn|];
        fallback_with ideas.
Qed.

Lemma generate_content_ideas_never_raises_witness :
  service_failure (Some "sk-live") (Some (canned_client "not json"))
                  (decoder_of wrapped_number_text wrapped_number) "drones" "tech"
  /\ returns_fallback
       (generate_content_ideas (Some "sk-live") (Some (canned_client "not json"))
                               (decoder_of wrapped_number_text wrapped_number)
                               "drones" "tech")
       "drones" "tech".
Proof.
  assert (Hfail : service_failure (Some "sk-live") (Some (canned_client "not json"))
                    (decoder_of wrapped_number_text wrapped_number) "drones" "tech").
  { eapply content_unparsable; reflexivity. }
  split; [exact Hfail|].
  exact (proj2 (generate_content_ideas_never_raises
                  (Some "sk-live") (Some (canned_client "not json"))
                  (decoder_of wrapped_number_text wrapped_number)
                  "drones" "tech") Hfail).
Defined.

(** C6 as stated fails: the payload [{"ideas": 42}] has none of the shapes
    the specification accepts, yet the generator returns 42 and not the
    fallback ideas. *)
Lemma wrapped_number_not_fallback :
  spec_accepted wrapped_number = None
  /\ result wrapped_number_call = Returns (VInt 42)
  /\ ~ returns_fallback wrapped_number_call "drones" "tech".
Proof.
  split; [reflexivity|]. split; [reflexivity|].
  intros (ideas & _ & Hres). discriminate Hres.
Qed.

(** C6, amended. When the live call delivers a content that decodes to a
    payload, the generator returns the payload itself if it is an array,
    the value under "ideas" if it is an object with that key (whatever that
    value is), and the fallback ideas for [(topic, category)] for every
    other payload. *)
Theorem response_shapes
        (key : option string) (client : Client)
        (json_loads : string -> outcome value) (topic cat : string)
        (response : ChatCompletion) (choice : Choice) (rest : list Choice)
        (text : string) (payload : value) :
  truthy key = true ->
  chat_completions_create client (build_request (build_prompt topic cat))
  = Returns response ->
  choices response = choice :: rest ->
  content (message choice) = Some text ->
  json_loads text = Returns payload ->
  match payload with
  | VList _ =>
      result (generate_content_ideas key (Some client) json_loads topic cat)
      = Returns payload
  | VDict d =>
      match lookup d "ideas" with
      | Some field =>
          result (generate_content_ideas key (Some client) json_loads topic cat)
          = Returns field
      | None =>
          returns_fallback
            (generate_content_ideas key (Some client) json_loads topic cat)
            topic cat
      end
  | _ =>
      returns_fallback
        (generate_content_ideas key (Some client) json_loads topic cat)
        topic cat
  end.
Proof.
  intros Hkey Hcall Hchoices Hcontent Hloads.
  name_fallback topic cat ideas.
  rewrite Hkey. cbn. rewrite Hcall. cbn. rewrite Hchoices. cbn.
  rewrite Hcontent. cbn. rewrite Hloads. cbn.
  destruct payload; cbn; try fallback_with ideas; try reflexivity.
  unfold contains, getitem.
  destruct (lookup entries "ideas"); cbn; [reflexivity | fallback_with ideas].
Qed.

Lemma response_shapes_witness :
  result wrapped_number_call = Returns (VInt 42).
Proof.
  exact (@response_shapes (Some "sk-live") (canned_client wrapped_number_text)
           (decoder_of wrapped_number_text wrapped_number) "drones" "tech"
           (mkChatCompletion [mkChoice (mkMessage (Some wrapped_number_text))])
           (mkChoice (mkMessage (Some wrapped_number_text))) []
           wrapped_number_text wrapped_number
           eq_refl eq_refl eq_refl eq_refl eq_refl).
Defined.

(** * Further properties *)

(** ** Module initialisation and the configuration guard *)

Ltac run_fallback topic cat ideas :=
  let Hmock := fresh "Hmock" in
  let mock := fresh "mock" in
  let E := fresh "E" in
  destruct (mock_returns topic cat) as (ideas & Hmock & _);
  unfold falls_back_logging, generate_content_ideas, generate_content_ideas_body;
  remember (generate_mock_content_ideas topic cat) as mock eqn:E;
  rewrite Hmock in E; subst mock.

(** X1. Importing the module never raises: the credential is whatever the
    environment holds under OPENAI_API_KEY, the client is the constructor's
    result, and when the constructor raises the client is [None] and one
    ERROR record carrying the exception's text is logged. *)
Theorem module_init_never_raises
        (environ : list (string * string))
        (OpenAI : option string -> outcome Client) :
  exists openai logs,
    module_init environ OpenAI
    = (logs, Returns (lookup environ "OPENAI_API_KEY", openai))
    /\ match OpenAI (lookup environ "OPENAI_API_KEY") with
       | Returns client => openai = Some client /\ logs = []
       | Raises e =>
           openai = None
           /\ logs = [(ERROR, "Error initializing OpenAI client: " ++ exc_str e)]
       end.
Proof.
  unfold module_init.
  destruct (OpenAI (lookup environ "OPENAI_API_KEY")) as [client|e];
    do 2 eexists; split; try reflexivity; split; reflexivity.
Qed.

(** X3. Without a usable credential (absent or empty) or without a client,
    the generator logs one WARNING, runs the fallback and returns its
    ideas; neither the client nor the decoder is consulted, so the outcome
    is the same for all of them. *)
Theorem unconfigured_skips_service
        (key : option string) (openai : option Client)
        (json_loads : string -> outcome value) (topic cat : string) :
  truthy key = false \/ openai = None ->
  falls_back_logging (generate_content_ideas key openai json_loads topic cat)
                     topic cat
                     (WARNING, "Using mock data as OpenAI is not configured").
Proof.
  intros Hoff. run_fallback topic cat ideas.
  assert (Hguard : negb (truthy key) || is_None openai = true).
  { destruct Hoff as [-> | ->]; [reflexivity|]. apply orb_true_r. }
  rewrite Hguard. exists ideas. split; reflexivity.
Qed.

Lemma unconfigured_skips_service_witness :
  (truthy (Some EmptyString) = false \/ Some (canned_client wrapped_number_text) = None)
  /\ falls_back_logging
       (generate_content_ideas (Some EmptyString)
                               (Some (canned_client wrapped_number_text))
                               (decoder_of wrapped_number_text wrapped_number)
                               "drones" "tech")
       "drones" "tech"
       (WARNING, "Using mock data as OpenAI is not configured").
Proof.
  assert (Hoff : truthy (Some EmptyString) = false
                 \/ Some (canned_client wrapped_number_text) = None)
    by (left; reflexivity).
  split; [exact Hoff|].
  exact (@unconfigured_skips_service (Some EmptyString)
           (Some (canned_client wrapped_number_text))
           (decoder_of wrapped_number_text wrapped_number) "drones" "tech" Hoff).
Defined.

(** X2. Import followed by a call: when the environment has no
    OPENAI_API_KEY or an empty one, or when the client constructor raises,
    the globals the import leaves make every call return the fallback
    ideas, whatever the service or the decoder would have answered. *)
Theorem unconfigured_environment_gives_fallback
        (environ : list (string * string))
        (OpenAI : option string -> outcome Client)
        (json_loads : string -> outcome value) (topic cat : string) :
  truthy (lookup environ "OPENAI_API_KEY") = false
  \/ (exists e, OpenAI (lookup environ "OPENAI_API_KEY") = Raises e) ->
  exists key openai,
    result (module_init environ OpenAI) = Returns (key, openai)
    /\ returns_fallback (generate_content_ideas key openai json_loads topic cat)
                        topic cat.
Proof.
  intros Hoff.
  exists (lookup environ "OPENAI_API_KEY").
  destruct (OpenAI (lookup environ "OPENAI_API_KEY")) as [client|e] eqn:Hctor.
  - exists (Some client). split; [unfold module_init; now rewrite Hctor|].
    destruct Hoff as [Hkey | [e He]]; [|discriminate He].
    name_fallback topic cat ideas. rewrite Hkey. fallback_with ideas.
  - exists None. split; [unfold module_init; now rewrite Hctor|].
    name_fallback topic cat ideas.
    destruct (truthy (lookup environ "OPENAI_API_KEY")); fallback_with ideas.
Qed.

Lemma unconfigured_environment_gives_fallback_witness :
  (truthy (lookup [("HOME", "/root")] "OPENAI_API_KEY") = false
   \/ exists e, strict_constructor (canned_client wrapped_number_text)
                  (lookup [("HOME", "/root")] "OPENAI_API_KEY") = Raises e)
  /\ exists key openai,
       result (module_init [("HOME", "/root")]
                           (strict_constructor (canned_client wrapped_number_text)))
       = Returns (key, openai)
       /\ returns_fallback
            (generate_content_ideas key openai
               (decoder_of wrapped_number_text wrapped_number) "drones" "all")
            "drones" "all".
Proof.
  assert (Hoff : truthy (lookup [("HOME", "/root")] "OPENAI_API_KEY") = false
                 \/ exists e, strict_constructor (canned_client wrapped_number_text)
                                (lookup [("HOME", "/root")] "OPENAI_API_KEY") = Raises e)
    by (left; reflexivity).
  split; [exact Hoff|].
  exact (@unconfigured_environment_gives_fallback [("HOME", "/root")]
           (strict_constructor (canned_client wrapped_number_text))
           (decoder_of wrapped_number_text wrapped_number) "drones" "all" Hoff).
Defined.

(** ** What the generator logs *)

(** X4. With a credential and a client, an exception raised by the call,
    by indexing an empty list of choices, or by the decoder is masked: the
    generator logs one ERROR record carrying the exception's text, then
    runs the fallback and returns its ideas. *)
Theorem live_exception_logged_and_masked
        (key : option string) (client : Client)
        (json_loads : string -> outcome value) (topic cat : string)
        (e : Exception) :
  truthy key = true ->
  live_attempt_raises client json_loads topic cat e ->
  falls_back_logging
    (generate_content_ideas key (Some client) json_loads topic cat)
    topic cat
    (ERROR, "Error generating content ideas: " ++ exc_str e).
Proof.
  intros Hkey Hraise. run_fallback topic cat ideas.
  rewrite Hkey. cbn.
  destruct Hraise as [e Hcall | response Hcall Hchoices
                      | response choice rest e Hcall Hchoices Hloads];
    rewrite Hcall; cbn; try (rewrite Hchoices; cbn); try (rewrite Hloads; cbn);
    exists ideas; split; reflexivity.
Qed.

Lemma live_exception_logged_and_masked_witness :
  falls_back_logging
    (generate_content_ideas (Some "sk-live") (Some (canned_client "not json"))
                            (decoder_of wrapped_number_text wrapped_number)
                            "drones" "tech")
    "drones" "tech"
    (ERROR, "Error generating content ideas: Expecting value").
Proof.
  apply (@live_exception_logged_and_masked (Some "sk-live")
           (canned_client "not json")
           (decoder_of wrapped_number_text wrapped_number) "drones" "tech"
           (mkException "JSONDecodeError" "Expecting value")).
  - reflexivity.
  - eapply raised_by_decoder; reflexivity.
Defined.

(** X5. A content that decodes to a payload which is neither an array nor
    an object with the key "ideas" is reported with one ERROR record that
    quotes the raw content, after which the fallback runs and its ideas
    are returned. *)
Theorem unexpected_shape_logged_and_masked
        (key : option string) (client : Client)
        (json_loads : string -> outcome value) (topic cat : string)
        (response : ChatCompletion) (choice : Choice) (rest : list Choice)
        (text : string) (payload : value) :
  truthy key = true ->
  chat_completions_create client (build_request (build_prompt topic cat))
  = Returns response ->
  choices response = choice :: rest ->
  content (message choice) = Some text ->
  json_loads text = Returns payload ->
  isinstance_list payload = false ->
  value_contains payload "ideas" = false ->
  falls_back_logging
    (generate_content_ideas key (Some client) json_loads topic cat)
    topic cat
    (ERROR, "Unexpected response format: " ++ text).
Proof.
  intros Hkey Hcall Hchoices Hcontent Hloads Hlist Hideas.
  run_fallback topic cat ideas.
  rewrite Hkey. cbn. rewrite Hcall. cbn. rewrite Hchoices. cbn.
  rewrite Hcontent. cbn. rewrite Hloads. cbn.
  rewrite Hideas, Hlist, andb_false_r. cbn.
  exists ideas. split; reflexivity.
Qed.

Lemma unexpected_shape_logged_and_masked_witness :
  falls_back_logging
    (generate_content_ideas (Some "sk-live") (Some (canned_client "7"))
                            (decoder_of "7" (VInt 7)) "drones" "tech")
    "drones" "tech"
    (ERROR, "Unexpected response format: 7").
Proof.
  exact (@unexpected_shape_logged_and_masked (Some "sk-live") (canned_client "7")
           (decoder_of "7" (VInt 7)) "drones" "tech"
           (mkChatCompletion [mkChoice (mkMessage (Some "7"))])
           (mkChoice (mkMessage (Some "7"))) [] "7" (VInt 7)
           eq_refl eq_refl eq_refl eq_refl eq_refl eq_refl eq_refl).
Defined.

(** X6. The generator is silent exactly when the service answered: if the
    live attempt delivers an answer, the generator returns it and logs
    nothing; and whenever the log is empty, the value returned is such an
    answer. Every fallback therefore leaves a record. *)
Theorem silent_exactly_when_served
        (key : option string) (openai : option Client)
        (json_loads : string -> outcome value) (topic cat : string) :
  (forall answer,
     service_answers key openai json_loads topic cat answer ->
     generate_content_ideas key openai json_loads topic cat = ([], Returns answer))
  /\ (logged (generate_content_ideas key openai json_loads topic cat) = [] ->
      exists answer,
        service_answers key openai json_loads topic cat answer
        /\ result (generate_content_ideas key openai json_loads topic cat)
           = Returns answer).
Proof.
  split.
  - intros answer Hserved.
    unfold generate_content_ideas, generate_content_ideas_body.
    destruct Hserved
      as [client response choice rest text items Hkey Hsome Hcall Hch Hcont Hloads
         | client response choice rest text entries answer
                  Hkey Hsome Hcall Hch Hcont Hloads Hfield];
      rewrite Hkey, Hsome; cbn; rewrite Hcall; cbn; rewrite Hch; cbn;
      rewrite Hcont; cbn; rewrite Hloads; cbn; [reflexivity|].
    unfold contains, getitem. rewrite Hfield. reflexivity.
  - run_fallback topic cat ideas.
    destruct (truthy key) eqn:Hkey; destruct openai as [client|]; cbn;
      try discriminate.
    destruct (chat_completions_create client _) as [response|e] eqn:Hcall; cbn;
      [|discriminate].
    destruct (choices response) as [|choice rest] eqn:Hch; cbn; [discriminate|].
    destruct (content (message choice)) as [text|] eqn:Hcont; cbn; [|discriminate].
    destruct (json_loads text) as [payload|e] eqn:Hloads; cbn; [|discriminate].
    destruct payload; cbn; try discriminate.
    + intros _. eexists. split; [|reflexivity].
      eapply answers_array; eauto.
    + unfold contains, getitem.
      destruct (lookup entries "ideas") as [answer|] eqn:Hfield; cbn;
        [|discriminate].
      intros _. exists answer. split; [|reflexivity].
      eapply answers_wrapper; eauto.
Qed.

Lemma silent_exactly_when_served_witness :
  service_answers (Some "sk-live") (Some (canned_client wrapped_number_text))
                  (decoder_of wrapped_number_text wrapped_number)
                  "drones" "tech" (VInt 42)
  /\ wrapped_number_call = ([], Returns (VInt 42)).
Proof.
  assert (Hserved : service_answers (Some "sk-live")
                      (Some (canned_client wrapped_number_text))
                      (decoder_of wrapped_number_text wrapped_number)
                      "drones" "tech" (VInt 42)).
  { eapply answers_wrapper; reflexivity. }
  split; [exact Hserved|].
  exact (proj1 (silent_exactly_when_served (Some "sk-live")
                  (Some (canned_client wrapped_number_text))
                  (decoder_of wrapped_number_text wrapped_number)
                  "drones" "tech") (VInt 42) Hserved).
Defined.

(** ** What the generator reads of the service *)

(** X7. One request decides: two clients that give the same reply to the
    request built from [(topic, category)] lead to the same log and the
    same result, whatever they would reply to any other request. *)
Theorem one_request_decides
        (key : option string) (client1 client2 : Client)
        (json_loads : string -> outcome value) (topic cat : string) :
  chat_completions_create client1 (build_request (build_prompt topic cat))
  = chat_completions_create client2 (build_request (build_prompt topic cat)) ->
  generate_content_ideas key (Some client1) json_loads topic cat
  = generate_content_ideas key (Some client2) json_loads topic cat.
Proof.
  intros Hsame.
  unfold generate_content_ideas, generate_content_ideas_body.
  destruct (truthy key); cbn; [|reflexivity].
  now rewrite Hsame.
Qed.

(** X8. Only the first choice of a completion is read: two completions
    that start with the same choice lead to the same log and the same
    result, whatever follows it. *)
Theorem only_first_choice_matters
        (key : option string) (client1 client2 : Client)
        (json_loads : string -> outcome value) (topic cat : string)
        (choice : Choice) (rest1 rest2 : list Choice) :
  chat_completions_create client1 (build_request (build_prompt topic cat))
  = Returns (mkChatCompletion (choice :: rest1)) ->
  chat_completions_create client2 (build_request (build_prompt topic cat))
  = Returns (mkChatCompletion (choice :: rest2)) ->
  generate_content_ideas key (Some client1) json_loads topic cat
  = generate_content_ideas key (Some client2) json_loads topic cat.
Proof.
  intros Hone Htwo.
  unfold generate_content_ideas, generate_content_ideas_body.
  destruct (truthy key); cbn; [|reflexivity].
  rewrite Hone, Htwo. reflexivity.
Qed.

Lemma one_request_decides_witness :
  generate_content_ideas (Some "sk-live") (Some (canned_client "[]"))
                         (decoder_of "[]" (VList [])) "drones" "tech"
  = generate_content_ideas (Some "sk-live") (Some (model_bound_client "[]"))
                           (decoder_of "[]" (VList [])) "drones" "tech".
Proof.
  apply (@one_request_decides (Some "sk-live") (canned_client "[]")
           (model_bound_client "[]") (decoder_of "[]" (VList [])) "drones" "tech").
  reflexivity.
Defined.

Lemma only_first_choice_matters_witness :
  generate_content_ideas (Some "sk-live") (Some (canned_client "[]"))
                         (decoder_of "[]" (VList [])) "drones" "all"
  = generate_content_ideas (Some "sk-live") (Some (two_choice_client "[]" "oops"))
                           (decoder_of "[]" (VList [])) "drones" "all".
Proof.
  apply (@only_first_choice_matters (Some "sk-live") (canned_client "[]")
           (two_choice_client "[]" "oops") (decoder_of "[]" (VList []))
           "drones" "all" (mkChoice (mkMessage (Some "[]"))) []
           [mkChoice (mkMessage (Some "oops"))]);
    reflexivity.
Defined.

(** ** The prompt *)

Lemma append_assoc (a b c : string) : (a ++ b) ++ c = a ++ b ++ c.
Proof. induction a as [|x a IH]; cbn; [reflexivity | now rewrite IH]. Qed.

Lemma substring_here (s after : string) : Substring s (s ++ after).
Proof. now exists EmptyString, after. Qed.

Lemma substring_skip (s p t : string) : Substring s t -> Substring s (p ++ t).
Proof.
  intros (before & after & ->). exists (p ++ before), after.
  now rewrite append_assoc.
Qed.

Lemma suffix_skip (s p t : string) :
  (exists before, t = before ++ s) -> exists before, p ++ t = before ++ s.
Proof.
  intros (before & ->). exists (p ++ before). now rewrite append_assoc.
Qed.

Ltac find_substring :=
  first [ apply substring_here | apply substring_skip; find_substring ].

Ltac find_suffix :=
  first [ exists "            "; reflexivity | apply suffix_skip; find_suffix ].

(** X13. The prompt carries the caller's inputs: for every topic and
    category it contains the topic between double quotes; for a category
    other than "all" it also contains the category's description from
    [CATEGORIES], which is "various topics" for a category the table lacks,
    and it ends with "Set category to: " followed by the category as
    given. *)
Theorem prompt_carries_inputs (topic cat : string) :
  Substring (dquote ++ topic ++ dquote) (build_prompt topic cat)
  /\ (cat <> "all" ->
      Substring (get CATEGORIES cat "various topics") (build_prompt topic cat)
      /\ (exists before,
            build_prompt topic cat = before ++ "Set category to: " ++ cat)
      /\ (~ In cat (keys CATEGORIES) ->
          get CATEGORIES cat "various topics" = "various topics")).
Proof.
  split.
  - unfold build_prompt.
    destruct (negb (cat =? "all")); cbv zeta;
      unfold category_prompt, mixed_prompt.
    + apply substring_skip.
      exists EmptyString. eexists. cbn [append]. rewrite !append_assoc. reflexivity.
    + apply substring_skip.
      exists EmptyString. eexists. cbn [append]. rewrite !append_assoc. reflexivity.
  - intros Hne. apply String.eqb_neq in Hne.
    unfold build_prompt. rewrite Hne. cbn [negb]. cbv zeta.
    unfold category_prompt. split; [|split].
    + generalize (get CATEGORIES cat "various topics"). intros desc.
      find_substring.
    + generalize (get CATEGORIES cat "various topics"). intros desc.
      find_suffix.
    + intros Hout. unfold get. now rewrite (lookup_absent CATEGORIES cat Hout).
Qed.

Lemma prompt_carries_inputs_witness :
  "podcasts" <> "all"
  /\ ~ In "podcasts" (keys CATEGORIES)
  /\ Substring "various topics" (build_prompt "drones" "podcasts")
  /\ exists before,
       build_prompt "drones" "podcasts" = before ++ "Set category to: podcasts".
Proof.
  assert (Hne : "podcasts" <> "all") by discriminate.
  assert (Hout : ~ In "podcasts" (keys CATEGORIES))
    by (cbn; intuition discriminate).
  destruct (prompt_carries_inputs "drones" "podcasts") as [_ Hspecific].
  destruct (Hspecific Hne) as (Hdesc & Hend & Hdefault).
  rewrite (Hdefault Hout) in Hdesc.
  repeat split; assumption.
Defined.

(** ** The template bank as a table *)

(** X9. For every topic the bank's keys are the six specific categories in
    the order of [CATEGORIES] after its wildcard "all"; every entry holds
    exactly 2 ideas, each labelled with the entry's key. *)
Theorem bank_consistent (topic : string) :
  keys (templates topic) = specific_categories
  /\ keys CATEGORIES = "all" :: keys (templates topic)
  /\ Forall (fun entry =>
               List.length (snd entry) = 2
               /\ Forall (fun i => category i = fst entry) (snd entry))
            (templates topic).
Proof.
  split; [reflexivity|]. split; [reflexivity|].
  repeat (apply Forall_cons; [split; [reflexivity | repeat constructor]|]).
  apply Forall_nil.
Qed.

Lemma bank_categories (topic : string) :
  Forall (fun i => In (category i) specific_categories) (bank_ideas topic).
Proof.
  unfold bank_ideas; cbn [templates map snd List.concat List.app].
  repeat (apply Forall_cons; [cbn; tauto|]).
  apply Forall_nil.
Qed.

(** X10. For every topic and every category string, known or not, the
    fallback returns 5 ideas when the category is "all" and 2 otherwise,
    and each idea's category is one of the six specific categories: no
    idea is ever labelled "all" or with an unknown requested value. *)
Theorem mock_size_and_labels (topic cat : string) :
  exists ideas,
    result (generate_mock_content_ideas topic cat) = Returns ideas
    /\ List.length ideas = (if cat =? "all" then 5 else 2)
    /\ Forall (fun i => In (category i) specific_categories) ideas.
Proof.
  destruct (mock_returns topic cat) as (ideas & Heq & Hincl).
  exists ideas. split; [now rewrite Heq|]. split.
  - destruct (String.eqb_spec cat "all") as [->|Hne].
    + cbn in Heq. injection Heq as <-. reflexivity.
    + destruct (mock_specific topic Hne) as (humor & Hh & Hspec).
      rewrite Hspec in Heq. injection Heq as <-.
      assert (Hin : In (get (templates topic) cat humor)
                       (map snd (templates topic))).
      { apply get_from_bank. injection Hh as <-. cbn. tauto. }
      revert Hin. generalize (get (templates topic) cat humor).
      intros chosen Hin. cbn in Hin.
      repeat (destruct Hin as [<-|Hin]; [reflexivity|]). contradiction.
  - eapply Forall_incl; [exact Hincl | apply bank_categories].
Qed.

(** X11. The "all" fallback is assembled from the specific ones: its five
    ideas are, in order, the first idea the fallback returns for humor,
    tech, finance, fitness and education. *)
Theorem mock_all_from_specific (topic : string) :
  exists ideas,
    result (generate_mock_content_ideas topic "all") = Returns ideas
    /\ Forall2 (fun idea cat =>
                  exists others,
                    result (generate_mock_content_ideas topic cat)
                    = Returns (idea :: others))
               ideas (firstn 5 specific_categories).
Proof.
  eexists. split; [reflexivity|].
  cbn [firstn specific_categories].
  repeat (apply Forall2_cons; [eexists; reflexivity|]).
  apply Forall2_nil.
Qed.

(** ** The topic in the fallback's output *)

Lemma append_cancel_r (s1 s2 t : string) : s1 ++ t = s2 ++ t -> s1 = s2.
Proof.
  revert s2. induction s1 as [|c s1 IH]; intros [|d s2] H; cbn in H.
  - reflexivity.
  - exfalso. apply (f_equal String.length) in H. cbn in H.
    rewrite length_append in H. lia.
  - exfalso. apply (f_equal String.length) in H. cbn in H.
    rewrite length_append in H. lia.
  - injection H as -> H. f_equal. now apply IH.
Qed.

Ltac same_topic H := first [exact H | exact (@append_cancel_r _ _ _ H)].

(** X12. The fallback's output determines the topic: for every category,
    two topics whose fallback results are equal are the same topic. *)
Theorem mock_topic_injective (topic1 topic2 cat : string) :
  result (generate_mock_content_ideas topic1 cat)
  = result (generate_mock_content_ideas topic2 cat) ->
  topic1 = topic2.
Proof.
  assert (Hfirst : forall o1 o2 : outcome (list ContentIdea),
             o1 = o2 ->
             match o1, o2 with
             | Returns (i :: _), Returns (j :: _) => title i = title j
             | _, _ => True
             end).
  { intros o1 o2 ->. destruct o2 as [[|j rest]|]; trivial. }
  intros H. apply Hfirst in H. revert H.
  unfold generate_mock_content_ideas.
  destruct (String.eqb_spec cat "all") as [->|Hne].
  - cbn. intros H. injection H as H. same_topic H.
  - cbn [negb]. unfold get, getitem. cbn [templates lookup].
    repeat match goal with
           | |- context [String.eqb ?k cat] => destruct (String.eqb k cat)
           end;
      cbn; intros H; try injection H as H; same_topic H.
Qed.

Lemma mock_topic_injective_witness :
  result (generate_mock_content_ideas ("dro" ++ "nes") "fitness")
  = result (generate_mock_content_ideas "drones" "fitness")
  /\ "dro" ++ "nes" = "drones".
Proof.
  assert (Hsame : result (generate_mock_content_ideas ("dro" ++ "nes") "fitness")
                  = result (generate_mock_content_ideas "drones" "fitness"))
    by reflexivity.
  split; [exact Hsame|].
  exact (@mock_topic_injective ("dro" ++ "nes") "drones" "fitness" Hsame).
Defined.

(** ** The loop of the "all" branch, over any bank *)

Lemma lookup_unique (V : Type) (d : list (string * V)) :
  NoDup (keys d) ->
  Forall (fun entry => lookup d (fst entry) = Some (snd entry)) d.
Proof.
  induction d as [|[k v] d IH]; intros Hnd; [constructor|].
  inversion Hnd as [|k' ks Hnotin Hnd']; subst.
  constructor.
  - cbn. now rewrite String.eqb_refl.
  - specialize (IH Hnd'). apply Forall_forall. intros [k2 v2] Hin. cbn.
    destruct (String.eqb_spec k k2) as [->|_].
    + exfalso. apply Hnotin. apply in_map_iff. now exists (k2, v2).
    + exact (proj1 (Forall_forall _ _) IH (k2, v2) Hin).
Qed.

Lemma bind_lift_returns (A B : Type) (a : A) (k : A -> M B) :
  bind (lift (Returns a)) k = k a.
Proof. unfold bind, lift. now destruct (k a). Qed.

Lemma mix_loop_collects (bank entries : list (string * list ContentIdea))
      (mixed : list ContentIdea) :
  Forall (fun entry => lookup bank (fst entry) = Some (snd entry)
                       /\ snd entry <> []) entries ->
  List.length mixed < 5 ->
  mix_loop bank (keys entries) mixed
  = ([], Returns (mixed ++ firstn (5 - List.length mixed) (heads entries))%list).
Proof.
  revert mixed. induction entries as [|[k ideas] entries IH]; intros mixed Hall Hlt.
  - cbn. now rewrite firstn_nil, app_nil_r.
  - inversion Hall as [|e es [Hlook Hne] Hrest]; subst. cbn in Hlook, Hne.
    destruct ideas as [|idea others]; [contradiction|].
    change (keys ((k, idea :: others) :: entries)) with (k :: keys entries).
    change (heads ((k, idea :: others) :: entries)) with (idea :: heads entries).
    cbn [mix_loop]. unfold getitem. rewrite Hlook.
    rewrite bind_lift_returns. cbn [first]. rewrite bind_lift_returns. cbv zeta.
    assert (Hlen : List.length (mixed ++ [idea]) = S (List.length mixed))
      by (rewrite length_app; cbn; lia).
    rewrite Hlen.
    replace (5 - List.length mixed) with (S (5 - S (List.length mixed))) by lia.
    rewrite firstn_cons.
    destruct (Nat.leb_spec 5 (S (List.length mixed))) as [Hfull|Hroom].
    + replace (5 - S (List.length mixed)) with 0 by lia. reflexivity.
    + rewrite IH; [|exact Hrest | lia].
      rewrite Hlen, <- app_assoc. reflexivity.
Qed.

Lemma heads_length (A : Type) (bank : list (string * list A)) :
  Forall (fun entry => snd entry <> []) bank ->
  List.length (heads bank) = List.length bank.
Proof.
  induction 1 as [|[k ideas] bank Hne _ IH]; [reflexivity|].
  cbn in Hne. destruct ideas as [|idea others]; [contradiction|].
  change (heads ((k, idea :: others) :: bank)) with (idea :: heads bank).
  cbn [List.length]. now rewrite IH.
Qed.

(** X14. Run over any bank with distinct keys and no empty entry, the loop
    returns the first idea of each entry in the bank's order and stops
    after the fifth: min(5, number of entries) ideas in all, so a bank of
    fewer than five categories is exhausted rather than padded. *)
Theorem mix_loop_first_five (bank : list (string * list ContentIdea)) :
  NoDup (keys bank) ->
  Forall (fun entry => snd entry <> []) bank ->
  mix_loop bank (keys bank) [] = ([], Returns (firstn 5 (heads bank)))
  /\ List.length (firstn 5 (heads bank)) = Nat.min 5 (List.length bank).
Proof.
  intros Hnd Hne. split.
  - apply (@mix_loop_collects bank bank []); [|cbn; lia].
    pose proof (lookup_unique _ Hnd) as Hlook.
    apply Forall_forall. intros entry Hin. split.
    + exact (proj1 (Forall_forall _ _) Hlook entry Hin).
    + exact (proj1 (Forall_forall _ _) Hne entry Hin).
  - now rewrite length_firstn, heads_length.
Qed.

Lemma mix_loop_first_five_witness :
  mix_loop (firstn 2 (templates "yoga")) (keys (firstn 2 (templates "yoga"))) []
  = ([], Returns (firstn 5 (heads (firstn 2 (templates "yoga")))))
  /\ List.length (firstn 5 (heads (firstn 2 (templates "yoga")))) = Nat.min 5 2.
Proof.
  apply (@mix_loop_first_five (firstn 2 (templates "yoga"))).
  - cbn. repeat (constructor; [cbn; intuition discriminate|]). constructor.
  - cbn. repeat (constructor; [discriminate|]). constructor.
Defined.

Lemma mix_loop_stops (bank : list (string * list ContentIdea))
      (before after : list (string * list ContentIdea)) (key : string)
      (mixed : list ContentIdea) :
  Forall (fun entry => lookup bank (fst entry) = Some (snd entry)
                       /\ snd entry <> []) before ->
  lookup bank key = Some [] ->
  List.length mixed + List.length before < 5 ->
  mix_loop bank (keys (before ++ (key, []) :: after)) mixed
  = ([], Raises IndexError).
Proof.
  revert mixed. induction before as [|[k ideas] before IH];
    intros mixed Hall Hkey Hlt.
  - change (keys ([] ++ (key, []) :: after)) with (key :: keys after).
    cbn [mix_loop]. unfold getitem. rewrite Hkey. reflexivity.
  - inversion Hall as [|e es [Hlook Hne] Hrest]; subst. cbn in Hlook, Hne.
    destruct ideas as [|idea others]; [contradiction|].
    change (keys (((k, idea :: others) :: before) ++ (key, []) :: after))
      with (k :: keys (before ++ (key, []) :: after)).
    cbn [mix_loop]. unfold getitem. rewrite Hlook.
    rewrite bind_lift_returns. cbn [first]. rewrite bind_lift_returns. cbv zeta.
    assert (Hlen : List.length (mixed ++ [idea]) = S (List.length mixed))
      by (rewrite length_app; cbn; lia).
    rewrite Hlen. cbn [List.length] in Hlt.
    destruct (Nat.leb_spec 5 (S (List.length mixed))) as [Hfull|Hroom]; [lia|].
    apply IH; [exact Hrest | exact Hkey | lia].
Qed.

(** X15. Run over a bank with distinct keys, the loop raises IndexError as
    soon as it meets an entry without ideas among the first five, the
    entries before it being non-empty; nothing is returned. *)
Theorem mix_loop_empty_entry_raises
        (before after : list (string * list ContentIdea)) (key : string) :
  NoDup (keys (before ++ (key, []) :: after)) ->
  Forall (fun entry => snd entry <> []) before ->
  List.length before < 5 ->
  mix_loop (before ++ (key, []) :: after)
           (keys (before ++ (key, []) :: after)) []
  = ([], Raises IndexError).
Proof.
  intros Hnd Hne Hlt.
  pose proof (lookup_unique _ Hnd) as Hlook.
  apply Forall_app in Hlook. destruct Hlook as [Hbefore Hrest].
  inversion Hrest as [|e es Hkey _]; subst. cbn in Hkey.
  apply mix_loop_stops; [|exact Hkey | cbn; lia].
  apply Forall_forall. intros entry Hin. split.
  - exact (proj1 (Forall_forall _ _) Hbefore entry Hin).
  - exact (proj1 (Forall_forall _ _) Hne entry Hin).
Qed.

Lemma mix_loop_empty_entry_raises_witness :
  mix_loop (firstn 1 (templates "yoga") ++ [("pets", [])])
           (keys (firstn 1 (templates "yoga") ++ [("pets", [])])) []
  = ([], Raises IndexError).
Proof.
  apply (@mix_loop_empty_entry_raises (firstn 1 (templates "yoga")) [] "pets").
  - cbn. repeat (constructor; [cbn; intuition discriminate|]). constructor.
  - cbn. repeat (constructor; [discriminate|]). constructor.
  - cbn. lia.
Defined.
